(** * RCM-cli: the C front-end that forwards to the RCM library

    The program is one function, [main] of [RCM-cli/Rcm-cli.c], written
    against the two operations declared in [RCM-cli/Rcm-cli.h].  It is
    embedded here as a finite tree of calls to its environment (the library
    and [fprintf]); the environment is an arbitrary stateful handler, and an
    execution yields the trace of calls made, with the value each returned. *)

From Stdlib Require Import ZArith List String Ascii Lia.
Import ListNotations.

Local Open Scope Z_scope.
Local Open Scope string_scope.

(** ** C data *)

(** [int].  No arithmetic is done on it by [main], only [argc <= 1]; the
    results below hold for every integer, so for every 32-bit one. *)
Definition c_int : Type := Z.

(** [const char*]: the null pointer, or the text it points to. *)
Definition c_str : Type := option string.

(** [<stdio.h>] streams. *)
Inductive FILE : Type := stdout | stderr.

Definition FILE_eqb (f g : FILE) : bool :=
  match f, g with
  | stdout, stdout | stderr, stderr => true
  | _, _ => false
  end.

(** The C escape [\n]. *)
Definition LF : string := String "010"%char EmptyString.

(** The part of [printf] formatting the program uses: [%s] takes the next
    argument, [%%] is a percent sign, any other character is copied.
    [None] stands for undefined behaviour: a null or missing argument for
    [%s], or a conversion that is not modelled. *)
Fixpoint c_format (fmt : string) (args : list c_str) : option string :=
  match fmt with
  | EmptyString => Some EmptyString
  | String c rest =>
      if (c =? "%")%char then
        match rest with
        | EmptyString => None
        | String d rest' =>
            if (d =? "s")%char then
              match args with
              | Some a :: args' => option_map (append a) (c_format rest' args')
              | _ => None
              end
            else if (d =? "%")%char then
              option_map (String "%"%char) (c_format rest' args)
            else None
        end
      else option_map (String c) (c_format rest args)
  end.

(** ** The calls [main] makes *)

(** [rcm_run] and [rcm_version] are the declarations of [Rcm-cli.h];
    [fprintf] is the C library's.  The index is the C return type. *)
Inductive call : Type -> Type :=
| rcm_run (argc : c_int) (argv : list c_str) : call c_int
| rcm_version : call c_str
| fprintf (f : FILE) (fmt : string) (args : list c_str) : call c_int.

(** A program: return a value, or make a call and go on with its result. *)
Inductive prog (R : Type) : Type :=
| Return (r : R)
| Call {X : Type} (c : call X) (k : X -> prog R).

Arguments Return {R} r.
Arguments Call {R X} c k.

Fixpoint bind {A B : Type} (p : prog A) (f : A -> prog B) : prog B :=
  match p with
  | Return a => f a
  | Call c k => Call c (fun x => bind (k x) f)
  end.

Definition perform {X : Type} (c : call X) : prog X := Call c Return.

Declare Scope prog_scope.
Delimit Scope prog_scope with prog.
Notation "x <- p ;; q" := (bind p (fun x => q))
  (at level 100, p at next level, right associativity) : prog_scope.
Notation "p ;; q" := (bind p (fun _ => q))
  (at level 100, right associativity) : prog_scope.
Local Open Scope prog_scope.

(** ** The program *)

(** [int main(int argc, const char* argv[])]. *)
Definition main (argc : c_int) (argv : list c_str) : prog c_int :=
  if (argc <=? 1)%Z then
    ver <- perform rcm_version ;;
    perform (fprintf stdout ("RCM CLI (C front-end) - %s" ++ LF)
               [match ver with Some _ => ver | None => Some "unknown" end]) ;;
    let helpv := [Some "rcm"; Some "--help"] in
    perform (rcm_run 2 helpv)
  else
    perform (rcm_run argc argv).

(** ** Executions *)

(** One call of a trace, with the value it returned. *)
Inductive entry : Type :=
| RunE (argc : c_int) (argv : list c_str) (ret : c_int)
| VersionE (ret : c_str)
| FprintfE (f : FILE) (fmt : string) (args : list c_str) (ret : c_int).

Definition entry_of {X : Type} (c : call X) : X -> entry :=
  match c in call T return T -> entry with
  | rcm_run argc argv => RunE argc argv
  | rcm_version => VersionE
  | fprintf f fmt args => FprintfE f fmt args
  end.

(** The environment: what each call returns and how it changes the state of
    the world [W] (the library's state, the streams, an oracle). *)
Definition handler (W : Type) : Type := forall X : Type, call X -> W -> X * W.

Record outcome (W R : Type) : Type := Outcome {
  trace : list entry;
  world : W;
  value : R
}.

Arguments Outcome {W R} _ _ _.
Arguments trace {W R} _.
Arguments world {W R} _.
Arguments value {W R} _.

Fixpoint exec {W R : Type} (h : handler W) (p : prog R) (w : W) : outcome W R :=
  match p with
  | Return r => Outcome [] w r
  | Call c k =>
      let xw := h _ c w in
      let o := exec h (k (fst xw)) (snd xw) in
      Outcome (entry_of c (fst xw) :: trace o) (world o) (value o)
  end.

(** ** Reading a trace *)

(** The [(argc, argv)] of each call of [rcm_run], in order. *)
Fixpoint run_calls (t : list entry) : list (c_int * list c_str) :=
  match t with
  | [] => []
  | RunE argc argv _ :: t' => (argc, argv) :: run_calls t'
  | _ :: t' => run_calls t'
  end.

(** What each call of [rcm_run] returned. *)
Fixpoint run_returns (t : list entry) : list c_int :=
  match t with
  | [] => []
  | RunE _ _ ret :: t' => ret :: run_returns t'
  | _ :: t' => run_returns t'
  end.

(** What each call of [rcm_version] returned. *)
Fixpoint version_returns (t : list entry) : list c_str :=
  match t with
  | [] => []
  | VersionE ret :: t' => ret :: version_returns t'
  | _ :: t' => version_returns t'
  end.

(** The text of each [fprintf] to stream [f] ([None]: undefined). *)
Fixpoint writes (f : FILE) (t : list entry) : list (option string) :=
  match t with
  | [] => []
  | FprintfE g fmt args _ :: t' =>
      if FILE_eqb f g then c_format fmt args :: writes f t' else writes f t'
  | _ :: t' => writes f t'
  end.

(** Which operation each entry is. *)
Inductive step : Type := SRun | SVersion | SFprintf.

Definition step_of (e : entry) : step :=
  match e with
  | RunE _ _ _ => SRun
  | VersionE _ => SVersion
  | FprintfE _ _ _ _ => SFprintf
  end.

Definition steps (t : list entry) : list step := map step_of t.

(** The text of the pointer given to [%s]: [ver ? ver : "unknown"]. *)
Definition version_text (ver : c_str) : string :=
  match ver with
  | Some v => v
  | None => "unknown"
  end.

(** The number of line feeds in a text. *)
Fixpoint count_LF (s : string) : nat :=
  match s with
  | EmptyString => 0%nat
  | String c s' => ((if (c =? "010")%char then 1 else 0) + count_LF s')%nat
  end.


(** ** A scripted environment

    The library answers [ver] and [status], [fprintf] answers [wr]; the
    state counts the calls made. *)
Definition scripted (ver : c_str) (status wr : c_int) : handler nat :=
  fun X c n =>
    match c in call T return T * nat with
    | rcm_run _ _ => (status, S n)
    | rcm_version => (ver, S n)
    | fprintf _ _ _ => (wr, S n)
    end.

(** ** The two paths of [main] *)

Section Paths.
Context {W : Type} (lib : handler W).

(** [argc > 1]: the one call [rcm_run(argc, argv)], whose result is returned. *)
Lemma exec_main_normal (argc : c_int) (argv : list c_str) (w : W) :
  1 < argc ->
  exec lib (main argc argv) w =
    let r := lib _ (rcm_run argc argv) w in
    Outcome [RunE argc argv (fst r)] (snd r) (fst r).
Proof.
  intros Hgt. unfold main.
  destruct (Z.leb_spec argc 1) as [Hle | _]; [lia | reflexivity].
Qed.

(** [argc <= 1]: [rcm_version], [fprintf], [rcm_run(2, helpv)], each in the
    state the call before it left. *)
Lemma exec_main_bare (argc : c_int) (argv : list c_str) (w : W) :
  argc <= 1 ->
  exec lib (main argc argv) w =
    let v := lib _ rcm_version w in
    let fmt := "RCM CLI (C front-end) - %s" ++ LF in
    let args := [Some (version_text (fst v))] in
    let p := lib _ (fprintf stdout fmt args) (snd v) in
    let helpv := [Some "rcm"; Some "--help"] in
    let r := lib _ (rcm_run 2 helpv) (snd p) in
    Outcome [VersionE (fst v); FprintfE stdout fmt args (fst p);
             RunE 2 helpv (fst r)]
            (snd r) (fst r).
Proof.
  intros Hle. unfold main.
  destruct (Z.leb_spec argc 1) as [_ | Hgt]; [ | lia].
  cbn. destruct (fst (lib _ rcm_version w)); reflexivity.
Qed.

End Paths.

(** The banner format applied to a text [v]. *)
Lemma c_format_banner (v : string) :
  c_format ("RCM CLI (C front-end) - %s" ++ LF) [Some v] =
    Some ("RCM CLI (C front-end) - " ++ v ++ LF).
Proof. reflexivity. Qed.

Lemma count_LF_app (s1 s2 : string) :
  count_LF (s1 ++ s2) = (count_LF s1 + count_LF s2)%nat.
Proof.
  induction s1 as [ | c s1 IH]; cbn; [reflexivity | ].
  rewrite IH. lia.
Qed.

(** ** The program on concrete invocations *)

(** No arguments, version ["1.2.0"]: the banner, then the help request. *)
Example run_without_arguments :
  exec (scripted (Some "1.2.0") 0 30) (main 1 [Some "rcm"]) 0%nat =
    Outcome [VersionE (Some "1.2.0");
             FprintfE stdout ("RCM CLI (C front-end) - %s" ++ LF)
                      [Some "1.2.0"] 30;
             RunE 2 [Some "rcm"; Some "--help"] 0]
            3%nat 0.
Proof. reflexivity. Qed.

Example banner_without_arguments :
  writes stdout
    (trace (exec (scripted (Some "1.2.0") 0 30) (main 1 [Some "rcm"]) 0%nat))
  = [Some ("RCM CLI (C front-end) - 1.2.0" ++ LF)].
Proof. reflexivity. Qed.

(** The library has no version text. *)
Example banner_without_version :
  writes stdout (trace (exec (scripted None 0 30) (main 0 []) 0%nat))
  = [Some ("RCM CLI (C front-end) - unknown" ++ LF)].
Proof. reflexivity. Qed.

(** An empty version text is not the null pointer: it is printed as it is. *)
Example banner_with_empty_version :
  writes stdout (trace (exec (scripted (Some "") 0 30) (main 1 [Some "rcm"]) 0%nat))
  = [Some ("RCM CLI (C front-end) - " ++ LF)].
Proof. reflexivity. Qed.

(** One argument, [status], and a library that answers 3. *)
Example run_with_status :
  exec (scripted (Some "1.2.0") 3 30) (main 2 [Some "rcm"; Some "status"]) 0%nat =
    Outcome [RunE 2 [Some "rcm"; Some "status"] 3] 1%nat 3.
Proof. reflexivity. Qed.

(** A null pointer given to [%s] is undefined; [main] never does it. *)
Example c_format_null : c_format ("v=%s" ++ LF) [None] = None.
Proof. reflexivity. Qed.

(** ** Forwarding *)

(** C1. With [argc > 1], [rcm_run] is called with the count and the vector
    [main] received, unchanged, and that call is all [main] does. *)
Theorem normal_forwards_verbatim {W : Type} (lib : handler W) (w : W)
    (argc : c_int) (argv : list c_str) :
  1 < argc ->
  run_calls (trace (exec lib (main argc argv) w)) = [(argc, argv)] /\
  steps (trace (exec lib (main argc argv) w)) = [SRun].
Proof.
  intros Hgt. rewrite (exec_main_normal lib argc argv w Hgt).
  split; reflexivity.
Qed.

Lemma normal_forwards_verbatim_witness :
  1 < 3 /\
  run_calls (trace (exec (scripted (Some "1.2.0") 0 30)
                         (main 3 [Some "rcm"; Some "status"; Some "-v"]) 0%nat))
    = [(3, [Some "rcm"; Some "status"; Some "-v"])] /\
  steps (trace (exec (scripted (Some "1.2.0") 0 30)
                     (main 3 [Some "rcm"; Some "status"; Some "-v"]) 0%nat))
    = [SRun].
Proof.
  split; [lia | ].
  apply (normal_forwards_verbatim (scripted (Some "1.2.0") 0 30) 0%nat 3
           [Some "rcm"; Some "status"; Some "-v"]).
  lia.
Defined.

(** C2. With [argc <= 1] (zero and negative counts too), [rcm_run] is called
    with count 2 and the two tokens ["rcm"], ["--help"], whatever the vector
    was. *)
Theorem bare_forwards_help {W : Type} (lib : handler W) (w : W)
    (argc : c_int) (argv : list c_str) :
  argc <= 1 ->
  run_calls (trace (exec lib (main argc argv) w))
    = [(2, [Some "rcm"; Some "--help"])].
Proof.
  intros Hle. rewrite (exec_main_bare lib argc argv w Hle). reflexivity.
Qed.

Lemma bare_forwards_help_witness :
  0 <= 1 /\
  run_calls (trace (exec (scripted None 7 (-1)) (main 0 []) 0%nat))
    = [(2, [Some "rcm"; Some "--help"])].
Proof.
  split; [lia | ].
  apply (bare_forwards_help (scripted None 7 (-1)) 0%nat 0 []). lia.
Defined.

(** C3. On both paths the value [main] returns is the value the call of
    [rcm_run] returned, as it is. *)
Theorem status_pass_through {W : Type} (lib : handler W) (w : W)
    (argc : c_int) (argv : list c_str) :
  run_returns (trace (exec lib (main argc argv) w))
    = [value (exec lib (main argc argv) w)].
Proof.
  destruct (Z.le_gt_cases argc 1) as [Hle | Hgt].
  - rewrite (exec_main_bare lib argc argv w Hle). reflexivity.
  - rewrite (exec_main_normal lib argc argv w Hgt). reflexivity.
Qed.

(** C5. Whatever the count and the vector, [rcm_run] is called once. *)
Theorem run_called_once {W : Type} (lib : handler W) (w : W)
    (argc : c_int) (argv : list c_str) :
  List.length (run_calls (trace (exec lib (main argc argv) w))) = 1%nat.
Proof.
  destruct (Z.le_gt_cases argc 1) as [Hle | Hgt].
  - rewrite (exec_main_bare lib argc argv w Hle). reflexivity.
  - rewrite (exec_main_normal lib argc argv w Hgt). reflexivity.
Qed.

(** ** The banner *)

(** C4. With [argc <= 1], [main] makes one write to [stdout]: the label, the
    separator, the version text and a line feed, where the version text is
    ["unknown"] when [rcm_version] returned the null pointer.  The write is
    defined for every answer of [rcm_version] (no null pointer reaches
    [%s]), it holds one line feed more than the version text does, and
    whatever [fprintf] returns, [main] goes on to return what [rcm_run]
    returned. *)
Theorem bare_prints_banner {W : Type} (lib : handler W) (w : W)
    (argc : c_int) (argv : list c_str) :
  argc <= 1 ->
  let o := exec lib (main argc argv) w in
  let ver := fst (lib _ rcm_version w) in
  let line := "RCM CLI (C front-end)" ++ " - " ++ version_text ver ++ LF in
  version_returns (trace o) = [ver] /\
  writes stdout (trace o) = [Some line] /\
  (ver = None ->
   writes stdout (trace o) = [Some ("RCM CLI (C front-end) - unknown" ++ LF)]) /\
  count_LF line = S (count_LF (version_text ver)) /\
  run_returns (trace o) = [value o].
Proof.
  intros Hle o ver line. subst o.
  rewrite (exec_main_bare lib argc argv w Hle). cbn zeta.
  fold ver. repeat split.
  - intros Hnull. cbn [trace writes FILE_eqb]. rewrite c_format_banner.
    rewrite Hnull. reflexivity.
  - subst line. rewrite !count_LF_app. cbn. lia.
Qed.

Lemma bare_prints_banner_witness :
  1 <= 1 /\
  let o := exec (scripted None 0 (-1)) (main 1 [Some "rcm"]) 0%nat in
  let ver := fst (scripted None 0 (-1) _ rcm_version 0%nat) in
  let line := "RCM CLI (C front-end)" ++ " - " ++ version_text ver ++ LF in
  version_returns (trace o) = [ver] /\
  writes stdout (trace o) = [Some line] /\
  (ver = None ->
   writes stdout (trace o) = [Some ("RCM CLI (C front-end) - unknown" ++ LF)]) /\
  count_LF line = S (count_LF (version_text ver)) /\
  run_returns (trace o) = [value o].
Proof.
  split; [lia | ].
  apply (bare_prints_banner (scripted None 0 (-1)) 0%nat 1 [Some "rcm"]). lia.
Defined.

(** C6. With [argc > 1] the trace of [main] is the call of [rcm_run] alone:
    nothing is written to [stdout] or to [stderr], and [rcm_version] is not
    asked. *)
Theorem normal_is_silent {W : Type} (lib : handler W) (w : W)
    (argc : c_int) (argv : list c_str) :
  1 < argc ->
  let t := trace (exec lib (main argc argv) w) in
  writes stdout t = [] /\ writes stderr t = [] /\
  version_returns t = [] /\ List.length t = 1%nat.
Proof.
  intros Hgt. rewrite (exec_main_normal lib argc argv w Hgt).
  repeat split.
Qed.

Lemma normal_is_silent_witness :
  1 < 2 /\
  let t := trace (exec (scripted (Some "1.2.0") 3 30)
                       (main 2 [Some "rcm"; Some "status"]) 0%nat) in
  writes stdout t = [] /\ writes stderr t = [] /\
  version_returns t = [] /\ List.length t = 1%nat.
Proof.
  split; [lia | ].
  apply (normal_is_silent (scripted (Some "1.2.0") 3 30) 0%nat 2
           [Some "rcm"; Some "status"]).
  lia.
Defined.

(** C9. The constants: on the bare path the first token given to [rcm_run]
    is ["rcm"], and the line written is ["RCM CLI (C front-end)"], then
    [" - "], then the version text, then a line feed. *)
Theorem constant_tokens {W : Type} (lib : handler W) (w : W)
    (argc : c_int) (argv : list c_str) :
  argc <= 1 ->
  let t := trace (exec lib (main argc argv) w) in
  map (fun c => hd None (snd c)) (run_calls t) = [Some "rcm"] /\
  exists v : string,
    map version_text (version_returns t) = [v] /\
    writes stdout t = [Some ("RCM CLI (C front-end)" ++ " - " ++ v ++ LF)].
Proof.
  intros Hle. rewrite (exec_main_bare lib argc argv w Hle). cbn zeta.
  split; [reflexivity | ].
  exists (version_text (fst (lib _ rcm_version w))).
  split; reflexivity.
Qed.

Lemma constant_tokens_witness :
  (-4) <= 1 /\
  let t := trace (exec (scripted (Some "1.2.0") 0 30)
                       (main (-4) [Some "x"; Some "y"]) 0%nat) in
  map (fun c => hd None (snd c)) (run_calls t) = [Some "rcm"] /\
  exists v : string,
    map version_text (version_returns t) = [v] /\
    writes stdout t = [Some ("RCM CLI (C front-end)" ++ " - " ++ v ++ LF)].
Proof.
  split; [lia | ].
  apply (constant_tokens (scripted (Some "1.2.0") 0 30) 0%nat (-4)
           [Some "x"; Some "y"]).
  lia.
Defined.

(** ** Order of the steps *)

(** C7. With [argc <= 1] the trace is: [rcm_version], then the [fprintf] of
    what it returned, then [rcm_run(2, helpv)]; that call is the last entry,
    [main] returns its result and leaves the world as the call left it. *)
Theorem bare_step_order {W : Type} (lib : handler W) (w : W)
    (argc : c_int) (argv : list c_str) :
  argc <= 1 ->
  let o := exec lib (main argc argv) w in
  steps (trace o) = [SVersion; SFprintf; SRun] /\
  exists (ver : c_str) (n : c_int) (w2 : W),
    trace o =
      [VersionE ver;
       FprintfE stdout ("RCM CLI (C front-end) - %s" ++ LF)
                [Some (version_text ver)] n;
       RunE 2 [Some "rcm"; Some "--help"] (value o)] /\
    lib _ (rcm_run 2 [Some "rcm"; Some "--help"]) w2 = (value o, world o).
Proof.
  intros Hle. rewrite (exec_main_bare lib argc argv w Hle). cbn zeta.
  split; [reflexivity | ].
  set (v := lib _ rcm_version w).
  set (p := lib _ (fprintf stdout _ _) (snd v)).
  exists (fst v), (fst p), (snd p).
  split; [reflexivity | ].
  cbn [value world]. apply surjective_pairing.
Qed.

Lemma bare_step_order_witness :
  1 <= 1 /\
  let o := exec (scripted (Some "1.2.0") 0 30) (main 1 [Some "rcm"]) 0%nat in
  steps (trace o) = [SVersion; SFprintf; SRun] /\
  exists (ver : c_str) (n : c_int) (w2 : nat),
    trace o =
      [VersionE ver;
       FprintfE stdout ("RCM CLI (C front-end) - %s" ++ LF)
                [Some (version_text ver)] n;
       RunE 2 [Some "rcm"; Some "--help"] (value o)] /\
    scripted (Some "1.2.0") 0 30 _ (rcm_run 2 [Some "rcm"; Some "--help"]) w2
      = (value o, world o).
Proof.
  split; [lia | ].
  apply (bare_step_order (scripted (Some "1.2.0") 0 30) 0%nat 1 [Some "rcm"]).
  lia.
Defined.

(** ** The vector on the bare path *)

(** C8. With [argc <= 1] the execution does not depend on the vector: it is
    the execution with count 0 and any other vector, the empty one
    included, and that one runs the three steps of the bare path. *)
Theorem bare_ignores_vector {W : Type} (lib : handler W) (w : W)
    (argc : c_int) (argv argv' : list c_str) :
  argc <= 1 ->
  exec lib (main argc argv) w = exec lib (main 0 argv') w /\
  steps (trace (exec lib (main 0 []) w)) = [SVersion; SFprintf; SRun].
Proof.
  intros Hle.
  rewrite (exec_main_bare lib argc argv w Hle).
  rewrite (exec_main_bare lib 0 argv' w), (exec_main_bare lib 0 [] w) by lia.
  split; reflexivity.
Qed.

Lemma bare_ignores_vector_witness :
  1 <= 1 /\
  exec (scripted None 0 30) (main 1 [Some "rcm"]) 0%nat
    = exec (scripted None 0 30) (main 0 [None]) 0%nat /\
  steps (trace (exec (scripted None 0 30) (main 0 []) 0%nat))
    = [SVersion; SFprintf; SRun].
Proof.
  split; [lia | ].
  apply (bare_ignores_vector (scripted None 0 30) 0%nat 1 [Some "rcm"] [None]).
  lia.
Defined.

(** ** Determinism *)

(** C10. Two executions of [main] on the same count and vector, in any two
    environments: if [rcm_version] returned the same in both and [rcm_run]
    returned the same in both, the text written to [stdout] is the same and
    the value returned is the same.  What [fprintf] returned may differ. *)
Theorem main_deterministic {W1 W2 : Type}
    (lib1 : handler W1) (w1 : W1) (lib2 : handler W2) (w2 : W2)
    (argc : c_int) (argv : list c_str) :
  let o1 := exec lib1 (main argc argv) w1 in
  let o2 := exec lib2 (main argc argv) w2 in
  version_returns (trace o1) = version_returns (trace o2) ->
  run_returns (trace o1) = run_returns (trace o2) ->
  writes stdout (trace o1) = writes stdout (trace o2) /\
  value o1 = value o2.
Proof.
  intros o1 o2. subst o1 o2.
  destruct (Z.le_gt_cases argc 1) as [Hle | Hgt].
  - rewrite (exec_main_bare lib1 argc argv w1 Hle).
    rewrite (exec_main_bare lib2 argc argv w2 Hle).
    cbn. intros Hver Hrun.
    injection Hver as Hver. injection Hrun as Hrun.
    split; [rewrite Hver; reflexivity | exact Hrun].
  - rewrite (exec_main_normal lib1 argc argv w1 Hgt).
    rewrite (exec_main_normal lib2 argc argv w2 Hgt).
    cbn. intros _ Hrun. injection Hrun as Hrun.
    split; [reflexivity | exact Hrun].
Qed.

Lemma main_deterministic_witness :
  let o1 := exec (scripted (Some "1.2.0") 5 30) (main 1 [Some "rcm"]) 0%nat in
  let o2 := exec (scripted (Some "1.2.0") 5 (-1)) (main 1 [Some "rcm"]) 9%nat in
  (version_returns (trace o1) = version_returns (trace o2) /\
   run_returns (trace o1) = run_returns (trace o2)) /\
  writes stdout (trace o1) = writes stdout (trace o2) /\
  value o1 = value o2.
Proof.
  intros o1 o2.
  split; [split; reflexivity | ].
  apply (main_deterministic (scripted (Some "1.2.0") 5 30) 0%nat
           (scripted (Some "1.2.0") 5 (-1)) 9%nat 1 [Some "rcm"]);
    reflexivity.
Defined.

(** ** What the library is given *)

(** X1. Whatever count [main] receives, the count it gives to [rcm_run] is
    at least 2: the library is never called with a bare vector. *)
Theorem run_count_at_least_two {W : Type} (lib : handler W) (w : W)
    (argc : c_int) (argv : list c_str) :
  Forall (fun c => 2 <= fst c) (run_calls (trace (exec lib (main argc argv) w))).
Proof.
  destruct (Z.le_gt_cases argc 1) as [Hle | Hgt].
  - rewrite (exec_main_bare lib argc argv w Hle). cbn.
    constructor; [cbn; lia | constructor].
  - rewrite (exec_main_normal lib argc argv w Hgt). cbn.
    constructor; [cbn; lia | constructor].
Qed.



(** X3. A bare invocation is the banner followed by the invocation
    [rcm --help]: after the calls of [rcm_version] and [fprintf], the rest of
    the trace, the final state and the value returned are those of [main]
    run with count 2 and the vector ["rcm"], ["--help"] from the state the
    [fprintf] left. *)
Theorem bare_is_banner_then_help {W : Type} (lib : handler W) (w : W)
    (argc : c_int) (argv : list c_str) :
  argc <= 1 ->
  let v := lib _ rcm_version w in
  let fmt := "RCM CLI (C front-end) - %s" ++ LF in
  let args := [Some (version_text (fst v))] in
  let p := lib _ (fprintf stdout fmt args) (snd v) in
  let o := exec lib (main argc argv) w in
  let o' := exec lib (main 2 [Some "rcm"; Some "--help"]) (snd p) in
  trace o = VersionE (fst v) :: FprintfE stdout fmt args (fst p) :: trace o' /\
  world o = world o' /\
  value o = value o'.
Proof.
  intros Hle v fmt args p o o'. subst o o'.
  rewrite (exec_main_bare lib argc argv w Hle).
  rewrite (exec_main_normal lib 2 [Some "rcm"; Some "--help"] (snd p)) by lia.
  repeat split.
Qed.

Lemma bare_is_banner_then_help_witness :
  1 <= 1 /\
  let lib := scripted (Some "1.2.0") 4 30 in
  let v := lib _ rcm_version 0%nat in
  let fmt := "RCM CLI (C front-end) - %s" ++ LF in
  let args := [Some (version_text (fst v))] in
  let p := lib _ (fprintf stdout fmt args) (snd v) in
  let o := exec lib (main 1 [Some "rcm-cli"]) 0%nat in
  let o' := exec lib (main 2 [Some "rcm"; Some "--help"]) (snd p) in
  trace o = VersionE (fst v) :: FprintfE stdout fmt args (fst p) :: trace o' /\
  world o = world o' /\
  value o = value o'.
Proof.
  split; [lia | ].
  apply (bare_is_banner_then_help (scripted (Some "1.2.0") 4 30) 0%nat 1
           [Some "rcm-cli"]).
  lia.
Defined.
